(** * Meta Ads daily report: the analytics core, embedded and verified

    Shallow embedding of the analytics pipeline of the daily-report
    program: metric aggregation ([data/meta_api.py]), the benchmark table
    and evaluator ([config/benchmarks.py], [analysis/benchmark.py]), the
    trend analyzer ([analysis/trend.py]), the anomaly detector
    ([analysis/anomaly.py]) and the recommendation builder of the report
    generator ([report/generator.py]).

    Conventions of the embedding.
    - Python numbers ([int] and [float]) are exact rationals [Qc]; an [int]
      is an integer-valued rational.  Floating-point rounding error, NaN
      and the infinities therefore have no counterpart here; decimal
      constants such as [1.1] stand for the rational [11/10].
    - A Python [dict] with string keys is a [gmap string _]; a [dict] whose
      iteration order is observable is an association list in insertion
      order.
    - A call that can raise returns a [result]: [Ok v] or [Raise e].
    - Text produced by the interpreter's own number formatting
      ([str(x)], [f"{x:.2f}"]), text-to-number conversion ([int(s)],
      [float(s)]), the wall clock and [datetime.strptime] are parameters
      of the sections that use them. *)

From Stdlib Require Import QArith Qcanon Ascii.
From stdpp Require Import gmap strings list fin_maps numbers pretty sorting.

Local Open Scope Qc_scope.

(** ** A fragment of the Python runtime *)

Module Py.

Inductive exn : Type :=
| ZeroDivisionError
| ValueError
| TypeError
| KeyError.

Inductive result (A : Type) : Type :=
| Ok (a : A)
| Raise (e : exn).
Arguments Ok {A} a.
Arguments Raise {A} e.

#[global] Instance exn_eq_dec : EqDecision exn.
Proof. solve_decision. Defined.

#[global] Instance result_eq_dec {A : Type} `{EqDecision A} : EqDecision (result A).
Proof. solve_decision. Defined.

Definition bind {A B : Type} (m : result A) (k : A → result B) : result B :=
  match m with
  | Ok a => k a
  | Raise e => Raise e
  end.

#[global] Instance result_ret : MRet result := λ A a, Ok a.
#[global] Instance result_bind : MBind result := λ A B k m, bind m k.

Definition is_Ok {A : Type} (m : result A) : Prop := ∃ a, m = Ok a.

(** Integers and decimal constants as rationals. *)
Definition qz (z : Z) : Qc := Qc_of_Z z.
Definition dec (n : Z) (d : positive) : Qc := Q2Qc (n # d).

(** [a / b] on numbers: true division, raising on a zero divisor. *)
Definition truediv (a b : Qc) : result Qc :=
  if decide (b = 0) then Raise ZeroDivisionError else Ok (a / b).

(** Nearest integer, ties to the even neighbour. *)
Definition round_half_even (q : Qc) : Z :=
  let n := Qnum q in
  let d := Zpos (Qden q) in
  let f := (n `div` d)%Z in
  let r := (n `mod` d)%Z in
  match (2 * r ?= d)%Z with
  | Lt => f
  | Gt => (f + 1)%Z
  | Eq => if Z.even f then f else (f + 1)%Z
  end.

(** [round(x, ndigits)]. *)
Definition round (x : Qc) (ndigits : nat) : Qc :=
  let scale := qz (10 ^ Z.of_nat ndigits) in
  qz (round_half_even (x * scale)) / scale.

(** [d.get(k, 0)] on a dict of numbers. *)
Definition get (d : gmap string Qc) (k : string) : Qc := default 0 (d !! k).

(** [d[k]] for a key that the code has stored before: the subscript
    cannot raise [KeyError] there, and is read like [get]. *)
Definition sub (d : gmap string Qc) (k : string) : Qc := default 0 (d !! k).

(** Scalars of a decoded JSON record. *)
Inductive value : Type :=
| VNone
| VInt (z : Z)
| VFloat (x : Qc)
| VStr (s : string).

#[global] Instance value_eq_dec : EqDecision value.
Proof. solve_decision. Defined.

(** Truth value of a scalar, as used by [or]. *)
Definition truthy (v : value) : bool :=
  match v with
  | VNone => false
  | VInt z => bool_decide (z ≠ 0%Z)
  | VFloat x => bool_decide (x ≠ 0)
  | VStr s => bool_decide (s ≠ "")
  end.

(** [a or b]. *)
Definition or_ (a b : value) : value := if truthy a then a else b.

(** [==] on scalars: an [int] equals the [float] of the same value. *)
Definition eqb (a b : value) : bool :=
  match a, b with
  | VNone, VNone => true
  | VInt x, VInt y => bool_decide (x = y)
  | VFloat x, VFloat y => bool_decide (x = y)
  | VInt x, VFloat y | VFloat y, VInt x => bool_decide (qz x = y)
  | VStr s, VStr t => bool_decide (s = t)
  | _, _ => false
  end.

(** [set(l)] as the list of its members, one per class of [==]. *)
Fixpoint set_ (l : list value) : list value :=
  match l with
  | [] => []
  | v :: l' => if existsb (eqb v) (set_ l') then set_ l' else v :: set_ l'
  end.

Section Conversions.
(** [int(s)] and [float(s)] on text: [None] stands for [ValueError]. *)
Variable int_of_str : string → option Z.
Variable float_of_str : string → option Qc.

Definition int_ (v : value) : result Z :=
  match v with
  | VNone => Raise TypeError
  | VInt z => Ok z
  | VFloat x => Ok (Qnum x `quot` Zpos (Qden x))%Z
  | VStr s => match int_of_str s with Some z => Ok z | None => Raise ValueError end
  end.

Definition float_ (v : value) : result Qc :=
  match v with
  | VNone => Raise TypeError
  | VInt z => Ok (qz z)
  | VFloat x => Ok x
  | VStr s => match float_of_str s with Some x => Ok x | None => Raise ValueError end
  end.
End Conversions.

(** Readers of plain decimal text, to run the model on records as the
    API delivers them (numbers as text).  Python accepts more spellings;
    the theorems below hold for every reader. *)
Definition digit (a : ascii) : option Z :=
  let n := Z.of_nat (nat_of_ascii a) in
  if decide (48 ≤ n ≤ 57)%Z then Some (n - 48)%Z else None.

Fixpoint digits (s : string) (acc : Z) : option Z :=
  match s with
  | EmptyString => Some acc
  | String a s' => match digit a with
                   | Some d => digits s' (10 * acc + d)%Z
                   | None => None
                   end
  end.

Definition decimal_int (s : string) : option Z :=
  match s with
  | EmptyString => None
  | String "-"%char (String _ _ as s') => Z.opp <$> digits s' 0
  | _ => digits s 0
  end.

Fixpoint split_dot (s : string) : string * option string :=
  match s with
  | EmptyString => (EmptyString, None)
  | String "."%char s' => (EmptyString, Some s')
  | String a s' => let '(i, f) := split_dot s' in (String a i, f)
  end.

Definition decimal_float (s : string) : option Qc :=
  let '(i, f) := split_dot s in
  match decimal_int i, f with
  | Some z, None => Some (qz z)
  | Some z, Some frac =>
      match frac, digits frac 0 with
      | String _ _, Some n =>
          let scale := qz (10 ^ Z.of_nat (String.length frac)) in
          let m := qz n / scale in
          Some (if decide (String.get 0 s = Some "-"%char) then qz z - m else qz z + m)
      | _, _ => None
      end
  | None, _ => None
  end.

(** A reader of dates written [YYYY-MM-DD], answering the day of the week
    (Monday is 0), to run the weekly pattern on concrete records. *)
Fixpoint split_on (c : ascii) (s : string) : list string :=
  match s with
  | EmptyString => [EmptyString]
  | String a s' =>
      if decide (a = c) then EmptyString :: split_on c s'
      else match split_on c s' with
           | [] => [String a EmptyString]
           | w :: ws => String a w :: ws
           end
  end.

Definition leap_year (y : Z) : bool :=
  bool_decide ((y `mod` 4 = 0 ∧ y `mod` 100 ≠ 0) ∨ y `mod` 400 = 0)%Z.

Definition days_in_month (y m : Z) : Z :=
  if decide (m = 2)%Z then (if leap_year y then 29 else 28)%Z
  else if decide (m = 4 ∨ m = 6 ∨ m = 9 ∨ m = 11)%Z then 30%Z
  else 31%Z.

(** Days since 1970-01-01, a Thursday. *)
Definition days_from_civil (y m d : Z) : Z :=
  let y' := (if decide (m ≤ 2) then y - 1 else y)%Z in
  let era := (y' `div` 400)%Z in
  let yoe := (y' - era * 400)%Z in
  let mp := (if decide (m ≤ 2) then m + 9 else m - 3)%Z in
  let doy := ((153 * mp + 2) `div` 5 + d - 1)%Z in
  let doe := (yoe * 365 + yoe `div` 4 - yoe `div` 100 + doy)%Z in
  (era * 146097 + doe - 719468)%Z.

Definition iso_weekday (s : string) : option nat :=
  match split_on "-" s with
  | [ys; ms; ds] =>
      if decide (String.length ys = 4 ∧ 1 ≤ String.length ms ≤ 2 ∧ 1 ≤ String.length ds ≤ 2)%nat
      then
        y ← digits ys 0; m ← digits ms 0; d ← digits ds 0;
        if decide (1 ≤ y ∧ 1 ≤ m ≤ 12 ∧ 1 ≤ d ≤ days_in_month y m)%Z
        then Some (Z.to_nat ((days_from_civil y m d + 3) `mod` 7))
        else None
      else None
  | _ => None
  end.

(** [list(dict.fromkeys(l))]: the keys of the dict, in insertion order; a
    key that is already present keeps its place. *)
Definition fromkeys (l : list string) : list string :=
  foldl (λ keys k, if decide (k ∈ keys) then keys else keys ++ [k]) [] l.

(** Stand-in printers and clock, to run the model on concrete inputs. *)
Definition show_ratio (x : Qc) : string :=
  pretty (Qnum x) +:+ "/" +:+ pretty (Zpos (Qden x)).
Definition no_clock (n : nat) : string := "t" +:+ pretty n.

End Py.

Import Py.

(** ** Aggregation of raw insight records ([data/meta_api.py]) *)

Module MetaApi.

(** One decoded record of the insights endpoint. *)
Abbreviation item := (gmap string value).

(** [item.get(k, 0)] and [item.get(k)]. *)
Definition item_get (it : item) (k : string) : value := default (VInt 0) (it !! k).
Definition item_get_none (it : item) (k : string) : value := default VNone (it !! k).

Section Aggregate.
Variable int_of_str : string → option Z.
Variable float_of_str : string → option Qc.

Abbreviation int_ := (int_ int_of_str).
Abbreviation float_ := (float_ float_of_str).

(** The initial [total] dict. *)
Definition initial_total (data : list item) : gmap string Qc :=
  <["days" := qz (Z.of_nat (length (set_ ((λ d, item_get_none d "date_start") <$> data))))]>
  (<["conversion_values" := 0]>
  (<["conversions" := 0]>
  (<["spend" := 0]>
  (<["clicks" := 0]>
  (<["impressions" := 0]> ∅))))).

(** One round of the summing loop. *)
Definition add_item (total : gmap string Qc) (it : item) : result (gmap string Qc) :=
  i ← int_ (or_ (item_get it "impressions") (VInt 0));
  let total := <["impressions" := sub total "impressions" + qz i]> total in
  c ← int_ (or_ (item_get it "clicks") (VInt 0));
  let total := <["clicks" := sub total "clicks" + qz c]> total in
  s ← float_ (or_ (item_get it "spend") (VInt 0));
  let total := <["spend" := sub total "spend" + s]> total in
  n ← int_ (or_ (item_get it "conversions") (VInt 0));
  let total := <["conversions" := sub total "conversions" + qz n]> total in
  v ← float_ (or_ (item_get it "conversion_values") (VInt 0));
  Ok (<["conversion_values" := sub total "conversion_values" + v]> total).

Fixpoint add_items (total : gmap string Qc) (data : list item) : result (gmap string Qc) :=
  match data with
  | [] => Ok total
  | it :: rest => total' ← add_item total it; add_items total' rest
  end.

(** The derived metrics, in the order of the source. *)
Definition derive (total : gmap string Qc) : result (gmap string Qc) :=
  total ← (if decide (0 < sub total "impressions")
           then q ← truediv (sub total "clicks") (sub total "impressions");
                Ok (<["ctr" := q * qz 100]> total)
           else Ok (<["ctr" := 0]> total));
  total ← (if decide (0 < sub total "clicks")
           then q ← truediv (sub total "spend") (sub total "clicks");
                Ok (<["cpc" := q]> total)
           else Ok (<["cpc" := 0]> total));
  total ← (if decide (0 < sub total "conversions")
           then q ← truediv (sub total "spend") (sub total "conversions");
                let total := <["cpa" := q]> total in
                r ← truediv (sub total "conversions") (sub total "clicks");
                Ok (<["conversion_rate" := r * qz 100]> total)
           else Ok (<["conversion_rate" := 0]> (<["cpa" := 0]> total)));
  total ← (if decide (0 < sub total "spend")
           then q ← truediv (sub total "conversion_values") (sub total "spend");
                Ok (<["roas" := q]> total)
           else Ok (<["roas" := 0]> total));
  if decide (0 < sub total "impressions" ∧ 0 < sub total "days")
  then q ← truediv (sub total "impressions") (sub total "days");
       Ok (<["frequency" := q]> total)
  else Ok (<["frequency" := 0]> total).


Definition aggregate_metrics (data : list item) : result (gmap string Qc) :=
  match data with
  | [] => Ok ∅
  | _ :: _ => total ← add_items (initial_total data) data; derive total
  end.

End Aggregate.


End MetaApi.

(** ** The benchmark table and its evaluator ([config/benchmarks.py]) *)

Module BenchmarkManager.

(** The dataclass [MetricBenchmark]. *)
Record MetricBenchmark : Type := {
  industry_min : Qc;
  industry_max : Qc;
  excellent : Qc;
  alert_threshold : Qc;
  higher_better : bool
}.

#[global] Instance MetricBenchmark_eq_dec : EqDecision MetricBenchmark.
Proof. solve_decision. Defined.

(** The class attribute [BENCHMARKS]. *)
Definition BENCHMARKS : gmap string MetricBenchmark :=
  list_to_map [
    ("ROAS", {| industry_min := dec 25 10; industry_max := dec 35 10; excellent := qz 4;
                alert_threshold := qz 2; higher_better := true |});
    ("CPC", {| industry_min := dec 50 100; industry_max := dec 120 100; excellent := dec 50 100;
               alert_threshold := qz 2; higher_better := false |});
    ("CTR", {| industry_min := dec 8 10; industry_max := dec 15 10; excellent := qz 2;
               alert_threshold := dec 5 10; higher_better := true |});
    ("CPA", {| industry_min := qz 15; industry_max := qz 35; excellent := qz 15;
               alert_threshold := qz 50; higher_better := false |});
    ("Frequency", {| industry_min := dec 15 10; industry_max := qz 3; excellent := dec 25 10;
                     alert_threshold := qz 4; higher_better := false |});
    ("ConversionRate", {| industry_min := qz 2; industry_max := qz 4; excellent := qz 5;
                          alert_threshold := qz 1; higher_better := true |})
  ].

(** Keyword arguments unpacked from an override dict into the call of
    [MetricBenchmark]: the five field names, each given or not, and the
    names of any other keys. *)
Record kwargs : Type := {
  kw_industry_min : option Qc;
  kw_industry_max : option Qc;
  kw_excellent : option Qc;
  kw_alert_threshold : option Qc;
  kw_higher_better : option bool;
  kw_other : list string
}.

(** The generated constructor: the four fields without default are
    required, [higher_better] defaults to [True], any other keyword is a
    [TypeError]. *)
Definition new_MetricBenchmark (kw : kwargs) : result MetricBenchmark :=
  match kw_other kw with
  | _ :: _ => Raise TypeError
  | [] =>
      match kw_industry_min kw, kw_industry_max kw, kw_excellent kw, kw_alert_threshold kw with
      | Some a, Some b, Some c, Some d =>
          Ok {| industry_min := a; industry_max := b; excellent := c; alert_threshold := d;
                higher_better := default true (kw_higher_better kw) |}
      | _, _, _, _ => Raise TypeError
      end
  end.

(** A value of the caller's override dict: a dict, or anything else. *)
Inductive override : Type :=
| OvDict (values : kwargs)
| OvOther.

(** The manager: its instance attribute [benchmarks]. *)
Record manager : Type := { benchmarks : gmap string MetricBenchmark }.

(** [_apply_custom_benchmarks], over [custom.items()] in order. *)
Fixpoint _apply_custom_benchmarks (self : manager) (custom : list (string * override))
  : result manager :=
  match custom with
  | [] => Ok self
  | (metric, values) :: rest =>
      match benchmarks self !! metric, values with
      | Some _, OvDict kw =>
          b ← new_MetricBenchmark kw;
          _apply_custom_benchmarks {| benchmarks := <[metric := b]> (benchmarks self) |} rest
      | _, _ => _apply_custom_benchmarks self rest
      end
  end.

(** [__init__]: [None] and the empty dict are both false. *)
Definition __init__ (custom_benchmarks : option (list (string * override))) : result manager :=
  let self := {| benchmarks := BENCHMARKS |} in
  match custom_benchmarks with
  | Some ((_ :: _) as custom) => _apply_custom_benchmarks self custom
  | _ => Ok self
  end.

Definition get_benchmark (self : manager) (metric : string) : option MetricBenchmark :=
  benchmarks self !! metric.

(** Values of the result dict of [evaluate]. *)
Inductive pyval : Type :=
| PStr (s : string)
| PNum (x : Qc)
| PBool (b : bool).

#[global] Instance pyval_eq_dec : EqDecision pyval.
Proof. solve_decision. Defined.

Section Evaluate.
(** [str(x)] on a number, as an f-string prints it. *)
Variable str : Qc → string.

Definition evaluate (self : manager) (metric : string) (value : Qc)
  : result (gmap string pyval) :=
  match get_benchmark self metric with
  | None => Ok (<["message" := PStr "未知指标"]> (<["status" := PStr "unknown"]> ∅))
  | Some benchmark =>
      let '(status, rating) :=
        if higher_better benchmark then
          if decide (excellent benchmark ≤ value) then ("excellent", "✅")
          else if decide (industry_min benchmark ≤ value) then ("good", "✅")
          else if decide (value < alert_threshold benchmark) then ("critical", "🚨")
          else ("warning", "⚠️")
        else
          if decide (value ≤ excellent benchmark) then ("excellent", "✅")
          else if decide (value ≤ industry_max benchmark) then ("good", "✅")
          else if decide (alert_threshold benchmark < value) then ("critical", "🚨")
          else ("warning", "⚠️") in
      gap_percent ←
        (if decide (status ≠ "unknown") then
           if higher_better benchmark then
             q ← truediv (value - industry_max benchmark) (industry_max benchmark);
             Ok (q * qz 100)
           else
             q ← truediv (industry_min benchmark - value) (industry_min benchmark);
             Ok (q * qz 100)
         else Ok 0);
      Ok (<["is_alert" := PBool (bool_decide (status = "critical"))]>
         (<["gap_percent" := PNum (round gap_percent 1)]>
         (<["excellent" := PNum (excellent benchmark)]>
         (<["industry_range" :=
              PStr (str (industry_min benchmark) +:+ "-" +:+ str (industry_max benchmark))]>
         (<["rating" := PStr rating]>
         (<["status" := PStr status]> ∅))))))
  end.

End Evaluate.

(** The classification as the specification words it. *)
Definition status_spec (b : MetricBenchmark) (v : Qc) : string :=
  if higher_better b then
    if decide (excellent b ≤ v) then "excellent"
    else if decide (industry_min b ≤ v) then "good"
    else if decide (v < alert_threshold b) then "critical"
    else "warning"
  else
    if decide (v ≤ excellent b) then "excellent"
    else if decide (v ≤ industry_max b) then "good"
    else if decide (alert_threshold b < v) then "critical"
    else "warning".

(** The divisor of the gap percentage. *)
Definition gap_divisor (b : MetricBenchmark) : Qc :=
  if higher_better b then industry_max b else industry_min b.

End BenchmarkManager.

(** ** Benchmark comparison ([analysis/benchmark.py]) *)

Module BenchmarkAnalyzer.

Definition status_order : list string := ["critical"; "warning"; "good"; "excellent"].

(** [l.index(x)]: the position of the first [x], [ValueError] without one. *)
Fixpoint index (l : list string) (x : string) : result nat :=
  match l with
  | [] => Raise ValueError
  | y :: l' => if decide (y = x) then Ok 0%nat else n ← index l' x; Ok (S n)
  end.

(** [_get_status_change]: the body of the [try], then its handler. *)
Definition _get_status_change (previous current : string) : result string :=
  let attempt : result string :=
    prev_index ← (if bool_decide (previous ≠ "") then index status_order previous
                  else Ok 1%nat);
    curr_index ← (if bool_decide (current ≠ "") then index status_order current
                  else Ok 1%nat);
    if decide (prev_index < curr_index)%nat then Ok "improved"
    else if decide (curr_index < prev_index)%nat then Ok "declined"
    else Ok "stable" in
  match attempt with
  | Raise ValueError => Ok "stable"
  | r => r
  end.

(** The comparison as the specification words it: positions in the fixed
    ordering, an unrecognized or missing status standing at index 1. *)
Definition position_spec (status : string) : nat :=
  match index status_order status with
  | Ok n => n
  | Raise _ => 1%nat
  end.

Definition status_delta_spec (previous current : string) : string :=
  if decide (position_spec previous < position_spec current)%nat then "improved"
  else if decide (position_spec current < position_spec previous)%nat then "declined"
  else "stable".

(** A status that the source can place: missing, or a member of the ordering. *)
Definition placeable (status : string) : Prop := status = "" ∨ status ∈ status_order.

#[global] Instance placeable_dec status : Decision (placeable status).
Proof. unfold placeable. apply _. Defined.

End BenchmarkAnalyzer.

(** ** Trend analysis ([analysis/trend.py]) *)

Module TrendAnalyzer.

(** One entry of the result of [compare_periods]; the fields are the keys
    ['current'], ['previous'], ['change_percent'] and ['trend']. *)
Record trend_comparison : Type := {
  cmp_current : Qc;
  cmp_previous : Qc;
  cmp_change_percent : Qc;
  cmp_trend : string
}.

#[global] Instance trend_comparison_eq_dec : EqDecision trend_comparison.
Proof. solve_decision. Defined.

Definition _get_trend (change_percent : Qc) : string :=
  if decide (qz 5 < change_percent) then "↑"
  else if decide (change_percent < qz (-5)) then "↓"
  else "→".


(** The percent change of one metric, before it is rounded. *)
Definition change_of (current previous : Qc) : result Qc :=
  if decide (0 < previous) then
    q ← truediv (current - previous) previous; Ok (q * qz 100)
  else Ok (if decide (current = 0) then 0 else qz 100).

(** The loop of [compare_periods] over the remaining metrics. *)
Fixpoint compare_loop (current_data previous_data : gmap string Qc)
    (metrics : list string) (comparison : gmap string trend_comparison)
  : result (gmap string trend_comparison) :=
  match metrics with
  | [] => Ok comparison
  | metric :: rest =>
      let current := get current_data metric in
      let previous := get previous_data metric in
      change_percent ← change_of current previous;
      compare_loop current_data previous_data rest
        (<[metric := {| cmp_current := round current 2;
                        cmp_previous := round previous 2;
                        cmp_change_percent := round change_percent 2;
                        cmp_trend := _get_trend change_percent |}]> comparison)
  end.



(** One point of a metric's sequence: the keys ['period'] and ['value']. *)
Record point : Type := { pt_period : string; pt_value : Qc }.

#[global] Instance point_eq_dec : EqDecision point.
Proof. solve_decision. Defined.

(** One entry of ['metrics_trend']: the keys ['values'], ['trend'] and
    ['trend_status']. *)
Record metric_trend : Type := {
  mt_values : list point;
  mt_trend : string;
  mt_trend_status : string
}.

#[global] Instance metric_trend_eq_dec : EqDecision metric_trend.
Proof. solve_decision. Defined.

(** The result of [analyze_multi_period]; ['trend_summary'] stays empty. *)
Record multi_period : Type := {
  periods : list Z;
  trend_summary : gmap string string;
  metrics_trend : gmap string metric_trend
}.

Definition trended_metrics : list string := ["roas"; "cpc"; "ctr"; "conversions"; "spend"].

(** [sorted(data_by_period.keys())]. *)
Definition sorted_keys (data_by_period : gmap Z (gmap string Qc)) : list Z :=
  merge_sort Z.le (map_to_list data_by_period).*1.

(** The value sequence of one metric over the sorted periods. *)
Definition values_of (data_by_period : gmap Z (gmap string Qc)) (periods : list Z)
    (metric : string) : list point :=
  (λ days, {| pt_period := pretty days +:+ "天";
              pt_value := round (get (default ∅ (data_by_period !! days)) metric) 2 |})
    <$> periods.

(** The direction of a sequence: [values[0]] against [values[-1]]. *)
Definition direction (values : list point) : string * string :=
  match values with
  | v0 :: _ :: _ =>
      let first := pt_value v0 in
      let last := pt_value (default v0 (last values)) in
      if decide (first * dec 11 10 < last) then ("持续上升", "positive")
      else if decide (last < first * dec 9 10) then ("持续下降", "negative")
      else ("相对稳定", "neutral")
  | _ => ("数据不足", "unknown")
  end.

Definition analyze_multi_period (data_by_period : gmap Z (gmap string Qc)) : multi_period :=
  let periods := sorted_keys data_by_period in
  {| periods := sorted_keys data_by_period;
     trend_summary := ∅;
     metrics_trend :=
       foldl (λ acc metric,
                let values := values_of data_by_period periods metric in
                <[metric := {| mt_values := values;
                               mt_trend := (direction values).1;
                               mt_trend_status := (direction values).2 |}]> acc)
             ∅ trended_metrics |}.

(** [statistics.mean]; its error on no data is a [ValueError]. *)
Definition mean (values : list Qc) : result Qc :=
  match values with
  | [] => Raise ValueError
  | _ :: _ => Ok (foldr Qcplus 0 values / qz (Z.of_nat (length values)))
  end.

(** A daily record: its ['date_start'], when present, and its metrics. *)
Record daily : Type := { date_start : option string; metrics : gmap string Qc }.

(** The result of [detect_weekly_pattern], by key. *)
Record weekly_pattern : Type := {
  weekday_avg : Qc;
  weekend_avg : Qc;
  ratio : Qc;
  pattern : string
}.

Section Weekly.
(** [datetime.strptime(s, '%Y-%m-%d').weekday()], [None] for the
    [ValueError] of a text that is not such a date. *)
Variable weekday_of : string → option nat.

(** The bucketing loop: weekday values, then weekend values. *)
Fixpoint buckets (daily_data : list daily) (metric : string)
    (weekday_values weekend_values : list Qc) : list Qc * list Qc :=
  match daily_data with
  | [] => (weekday_values, weekend_values)
  | item :: rest =>
      let date_str := default "" (date_start item) in
      if decide (date_str = "") then buckets rest metric weekday_values weekend_values
      else
        match weekday_of date_str with
        | Some weekday =>
            let value := get (metrics item) metric in
            if decide (weekday < 5)%nat
            then buckets rest metric (weekday_values ++ [value]) weekend_values
            else buckets rest metric weekday_values (weekend_values ++ [value])
        | None => buckets rest metric weekday_values weekend_values
        end
  end.

Definition detect_weekly_pattern (daily_data : list daily) (metric : string)
  : result weekly_pattern :=
  let '(weekday_values, weekend_values) := buckets daily_data metric [] [] in
  weekday_avg ← (match weekday_values with [] => Ok 0 | _ => mean weekday_values end);
  weekend_avg ← (match weekend_values with [] => Ok 0 | _ => mean weekend_values end);
  ratio ← (if decide (0 < weekend_avg) then truediv weekday_avg weekend_avg else Ok 0);
  Ok {| weekday_avg := round weekday_avg 2;
        weekend_avg := round weekend_avg 2;
        ratio := round ratio 2;
        pattern := if decide (ratio < dec 9 10) then "周末表现更好"
                   else if decide (dec 11 10 < ratio) then "工作日表现更好"
                   else "无明显差异" |}.

(** Every record that the loop uses falls on Monday to Friday. *)
Definition all_on_weekdays (daily_data : list daily) : Prop :=
  ∀ item date_str weekday,
    item ∈ daily_data → date_start item = Some date_str → date_str ≠ "" →
    weekday_of date_str = Some weekday → (weekday < 5)%nat.

End Weekly.

End TrendAnalyzer.

(** ** Anomaly detection ([analysis/anomaly.py]) *)

Module AnomalyDetector.

(** The [threshold] of an anomaly: a number, or a description. *)
Inductive threshold_value : Type :=
| ThNum (x : Qc)
| ThText (s : string).

#[global] Instance threshold_value_eq_dec : EqDecision threshold_value.
Proof. solve_decision. Defined.

(** The class [Anomaly]. *)
Record Anomaly : Type := {
  metric : string;
  value : Qc;
  threshold : threshold_value;
  campaign : string;
  severity : string;
  suggestion : string;
  timestamp : string
}.

#[global] Instance Anomaly_eq_dec : EqDecision Anomaly.
Proof. solve_decision. Defined.

(** The detector: its [thresholds] dict, by key. *)
Record detector : Type := {
  roas_min : Qc;
  cpc_max : Qc;
  no_conversion_spend : Qc;
  frequency_max : Qc
}.

Section Detect.
(** [str(x)] and [format(x, '.2f')] on a number. *)
Variable str : Qc → string.
Variable fmt_2f : Qc → string.
(** The formatted wall clock at its n-th reading; a computation carries
    the number of readings made so far. *)
Variable clock : nat → string.

(** [Anomaly(...)]: the constructor reads the clock once. *)
Definition new_Anomaly (metric : string) (value : Qc) (threshold : threshold_value)
    (campaign severity suggestion : string) (reads : nat) : Anomaly * nat :=
  ({| metric := metric; value := value; threshold := threshold; campaign := campaign;
      severity := severity; suggestion := suggestion; timestamp := clock reads |},
   S reads).

(** [anomalies.append(Anomaly(...))] under the guard [fires]. *)
Definition append_if (fires : bool) (make : nat → Anomaly * nat)
    (state : list Anomaly * nat) : list Anomaly * nat :=
  if fires then let '(a, reads) := make state.2 in (state.1 ++ [a], reads) else state.

Definition _detect_account_anomalies (self : detector) (data : gmap string Qc) (reads : nat)
  : list Anomaly * nat :=
  let state := ([], reads) in
  let roas := get data "roas" in
  let state :=
    append_if (bool_decide (roas < roas_min self))
      (new_Anomaly "ROAS" roas (ThNum (roas_min self)) "Account" "critical"
         "ROAS 低于告警阈值，建议检查广告目标设置和受众定位") state in
  let cpc := get data "cpc" in
  let state :=
    append_if (bool_decide (cpc_max self < cpc))
      (new_Anomaly "CPC" cpc (ThNum (cpc_max self)) "Account" "warning"
         "CPC 接近告警阈值，建议检查受众重叠情况和出价策略") state in
  let spend := get data "spend" in
  let conversions := get data "conversions" in
  let state :=
    append_if (bool_decide (conversions = 0) && bool_decide (no_conversion_spend self < spend))
      (new_Anomaly "转化" 0
         (ThText ("花费>$" +:+ str (no_conversion_spend self) +:+ "但无转化"))
         "Account" "critical"
         ("已花费 $" +:+ fmt_2f spend +:+ " 但无转化，请检查转化跟踪设置和着陆页")) state in
  let frequency := get data "frequency" in
  let state :=
    append_if (bool_decide (frequency_max self < frequency))
      (new_Anomaly "Frequency" frequency (ThNum (frequency_max self)) "Account" "warning"
         "展示频次过高，可能导致广告疲劳，建议扩展受众或更换创意") state in
  state.

End Detect.

(** What a reader of the anomaly list sees of one entry. *)
Definition headline (a : Anomaly) : string * string := (metric a, severity a).

End AnomalyDetector.

(** ** Recommendations of the report ([report/generator.py]) *)

Module ReportGenerator.

(** One entry of the benchmark evaluation handed to the generator, with
    the keys that [analyze_all_metrics] stores. *)
Record evaluation : Type := {
  ev_value : Qc;
  ev_benchmark_range : string;
  ev_excellent : Qc;
  ev_status : string;
  ev_rating : string;
  ev_gap_percent : Qc;
  is_alert : bool
}.

(** The list [insights] as it stands before duplicates are removed;
    [benchmark_evaluation] is the dict's items in order. *)
Definition collect_insights
    (comparison : gmap string TrendAnalyzer.trend_comparison)
    (trend_analysis : TrendAnalyzer.multi_period)
    (benchmark_evaluation : list (string * evaluation))
    (anomalies : list AnomalyDetector.Anomaly) : list string :=
  let insights := [] in
  let trend_status :=
    TrendAnalyzer.mt_trend_status <$> TrendAnalyzer.metrics_trend trend_analysis !! "roas" in
  let insights :=
    if decide (trend_status = Some "positive")
    then insights ++ ["✅ ROAS 持续上升，当前优化策略有效，建议继续保持"]
    else if decide (trend_status = Some "negative")
    then insights ++ ["⚠️ ROAS 持续下降，建议检查受众定位和广告创意"]
    else insights in
  let spend_change :=
    default 0 (TrendAnalyzer.cmp_change_percent <$> comparison !! "spend") in
  let conv_change :=
    default 0 (TrendAnalyzer.cmp_change_percent <$> comparison !! "conversions") in
  let insights :=
    if decide (qz 20 < spend_change ∧ conv_change < qz 10)
    then insights ++ ["📉 花费增加但转化未同步增长，建议优化出价策略"]
    else insights in
  let insights :=
    foldl (λ insights '(metric, result),
             if is_alert result
             then insights ++ ["🚨 " +:+ metric +:+ " 低于行业标准，需要重点关注和优化"]
             else insights)
          insights benchmark_evaluation in
  let insights :=
    foldl (λ insights anomaly,
             if bool_decide (AnomalyDetector.severity anomaly = "critical")
                && bool_decide (AnomalyDetector.suggestion anomaly ≠ "")
             then insights ++ ["💡 " +:+ AnomalyDetector.suggestion anomaly]
             else insights)
          insights anomalies in
  insights.

Definition _generate_insights
    (comparison : gmap string TrendAnalyzer.trend_comparison)
    (trend_analysis : TrendAnalyzer.multi_period)
    (benchmark_evaluation : list (string * evaluation))
    (anomalies : list AnomalyDetector.Anomaly) : list string :=
  let insights := collect_insights comparison trend_analysis benchmark_evaluation anomalies in
  let insights := fromkeys insights in
  take 5 insights.

(** De-duplication as the specification words it: going through the list,
    an entry is kept exactly when it has not occurred before. *)
Fixpoint first_occurrences_from (seen l : list string) : list string :=
  match l with
  | [] => []
  | x :: l' =>
      if decide (x ∈ seen) then first_occurrences_from seen l'
      else x :: first_occurrences_from (seen ++ [x]) l'
  end.

Definition first_occurrences (l : list string) : list string := first_occurrences_from [] l.

End ReportGenerator.

(** ** More of the runtime: slices, sums, loops that can raise *)

Module PyList.

(** [l[a:b]] with Python's treatment of negative and oversized bounds. *)
Definition slice {A : Type} (l : list A) (a b : Z) : list A :=
  let n := Z.of_nat (length l) in
  let clamp (i : Z) : Z := if decide (i < 0)%Z then Z.max (i + n) 0 else Z.min i n in
  take (Z.to_nat (clamp b - clamp a)) (drop (Z.to_nat (clamp a)) l).

(** [sum(l)]: additions from 0, left to right. *)
Definition sum (l : list Qc) : Qc := foldl Qcplus 0 l.

(** [range(n)] for an integer [n]. *)
Definition range (n : Z) : list Z := Z.of_nat <$> seq 0 (Z.to_nat n).

(** A list comprehension whose element expression can raise: the first
    fault ends it. *)
Fixpoint comprehension {A B : Type} (f : A → result B) (l : list A) : result (list B) :=
  match l with
  | [] => Ok []
  | x :: l' => y ← f x; ys ← comprehension f l'; Ok (y :: ys)
  end.

End PyList.

(** ** Moving average ([analysis/trend.py]) *)

Module MovingAverage.

Definition calculate_moving_average (values : list Qc) (window : Z) : result (list Qc) :=
  if decide (Z.of_nat (length values) < window)%Z then Ok values
  else
    PyList.comprehension
      (λ i, truediv (PyList.sum (PyList.slice values i (i + window))) (qz window))
      (PyList.range (Z.of_nat (length values) - window + 1)).

End MovingAverage.

(** ** Benchmark analysis of an aggregate ([analysis/benchmark.py]) *)

Module BenchmarkReport.

(** Subscripts into the result dict of [evaluate]; a missing key is a
    [KeyError].  The keys read below always hold a value of the kind that
    [evaluate] stored, the other kind is reported as [TypeError]. *)
Definition item_str (d : gmap string BenchmarkManager.pyval) (k : string) : result string :=
  match d !! k with
  | Some (BenchmarkManager.PStr s) => Ok s
  | Some _ => Raise TypeError
  | None => Raise KeyError
  end.

Definition item_num (d : gmap string BenchmarkManager.pyval) (k : string) : result Qc :=
  match d !! k with
  | Some (BenchmarkManager.PNum x) => Ok x
  | Some _ => Raise TypeError
  | None => Raise KeyError
  end.

Definition item_bool (d : gmap string BenchmarkManager.pyval) (k : string) : result bool :=
  match d !! k with
  | Some (BenchmarkManager.PBool b) => Ok b
  | Some _ => Raise TypeError
  | None => Raise KeyError
  end.

(** The table from aggregate fields to benchmark names, in order. *)
Definition metric_mapping : list (string * string) :=
  [("roas", "ROAS"); ("cpc", "CPC"); ("ctr", "CTR"); ("cpa", "CPA");
   ("frequency", "Frequency"); ("conversion_rate", "ConversionRate")].

(** [results[k] = v] on a dict kept as its items in insertion order. *)
Fixpoint setitem {V : Type} (results : list (string * V)) (k : string) (v : V)
  : list (string * V) :=
  match results with
  | [] => [(k, v)]
  | (k', v') :: rest =>
      if decide (k' = k) then (k, v) :: rest else (k', v') :: setitem rest k v
  end.

Section Analyze.
Variable str : Qc → string.

(** The loop of [analyze_all_metrics] over the remaining table entries. *)
Fixpoint analyze_loop (self : BenchmarkManager.manager) (data : gmap string Qc)
    (mapping : list (string * string)) (results : list (string * ReportGenerator.evaluation))
  : result (list (string * ReportGenerator.evaluation)) :=
  match mapping with
  | [] => Ok results
  | (data_field, benchmark_key) :: rest =>
      let value := get data data_field in
      evaluation ← BenchmarkManager.evaluate str self benchmark_key value;
      benchmark_range ← item_str evaluation "industry_range";
      excellent ← item_num evaluation "excellent";
      status ← item_str evaluation "status";
      rating ← item_str evaluation "rating";
      gap_percent ← item_num evaluation "gap_percent";
      is_alert ← item_bool evaluation "is_alert";
      analyze_loop self data rest
        (setitem results benchmark_key
           {| ReportGenerator.ev_value := round value 2;
              ReportGenerator.ev_benchmark_range := benchmark_range;
              ReportGenerator.ev_excellent := excellent;
              ReportGenerator.ev_status := status;
              ReportGenerator.ev_rating := rating;
              ReportGenerator.ev_gap_percent := gap_percent;
              ReportGenerator.is_alert := is_alert |})
  end.

Definition analyze_all_metrics (self : BenchmarkManager.manager) (data : gmap string Qc)
  : result (list (string * ReportGenerator.evaluation)) :=
  analyze_loop self data metric_mapping [].

End Analyze.

(** The score of one status. *)
Definition status_score (status : string) : Z :=
  if decide (status = "excellent") then 100
  else if decide (status = "good") then 75
  else if decide (status = "warning") then 50
  else if decide (status = "critical") then 25
  else 50.

Definition get_overall_score (evaluation : list (string * ReportGenerator.evaluation))
  : result Qc :=
  match evaluation with
  | [] => Ok 0
  | _ :: _ =>
      let scores :=
        foldl (λ scores '(metric, result),
                 scores ++ [status_score (ReportGenerator.ev_status result)])
              [] evaluation in
      match scores with
      | [] => Ok 0
      | _ :: _ =>
          q ← truediv (PyList.sum (qz <$> scores)) (qz (Z.of_nat (length scores)));
          Ok (round q 1)
      end
  end.

(** One entry of the result of [compare_with_previous], by key. *)
Record status_comparison : Type := {
  current_status : string;
  previous_status : string;
  change : string;
  improved : bool;
  declined : bool
}.

(** [compare_with_previous]; the evaluations are read for their statuses:
    the current one by subscript, the previous one with [''] as default. *)
Fixpoint compare_loop (current_evaluation : list (string * ReportGenerator.evaluation))
    (previous_evaluation : gmap string ReportGenerator.evaluation)
    (comparison : list (string * status_comparison))
  : result (list (string * status_comparison)) :=
  match current_evaluation with
  | [] => Ok comparison
  | (metric, current) :: rest =>
      let current_status := ReportGenerator.ev_status current in
      let previous_status :=
        default "" (ReportGenerator.ev_status <$> previous_evaluation !! metric) in
      status_change ← BenchmarkAnalyzer._get_status_change previous_status current_status;
      compare_loop rest previous_evaluation
        (setitem comparison metric
           {| current_status := current_status;
              previous_status := previous_status;
              change := status_change;
              improved := bool_decide (status_change = "improved");
              declined := bool_decide (status_change = "declined") |})
  end.

Definition compare_with_previous
    (current_evaluation : list (string * ReportGenerator.evaluation))
    (previous_evaluation : gmap string ReportGenerator.evaluation)
  : result (list (string * status_comparison)) :=
  compare_loop current_evaluation previous_evaluation [].

End BenchmarkReport.

(** The rows that [analyze_all_metrics] is expected to build, written out
    per benchmark definition (used to state its properties). *)

Module BenchmarkRows.

Definition rating_of (status : string) : string :=
  if decide (status = "critical") then "🚨"
  else if decide (status = "warning") then "⚠️"
  else "✅".

Definition gap_of (b : BenchmarkManager.MetricBenchmark) (value : Qc) : Qc :=
  if BenchmarkManager.higher_better b
  then (value - BenchmarkManager.industry_max b) / BenchmarkManager.industry_max b * qz 100
  else (BenchmarkManager.industry_min b - value) / BenchmarkManager.industry_min b * qz 100.

Section Rows.
Variable str : Qc → string.

Definition row_of (b : BenchmarkManager.MetricBenchmark) (value : Qc)
  : ReportGenerator.evaluation :=
  let status := BenchmarkManager.status_spec b value in
  {| ReportGenerator.ev_value := round value 2;
     ReportGenerator.ev_benchmark_range :=
       str (BenchmarkManager.industry_min b) +:+ "-" +:+ str (BenchmarkManager.industry_max b);
     ReportGenerator.ev_excellent := BenchmarkManager.excellent b;
     ReportGenerator.ev_status := status;
     ReportGenerator.ev_rating := rating_of status;
     ReportGenerator.ev_gap_percent := round (gap_of b value) 1;
     ReportGenerator.is_alert := bool_decide (status = "critical") |}.

End Rows.

(** Every name of the mapping table is registered with a definition whose
    gap divisor is not zero. *)
Definition analyzable (self : BenchmarkManager.manager) : Prop :=
  ∀ key, key ∈ BenchmarkReport.metric_mapping.*2 →
    ∃ b, BenchmarkManager.get_benchmark self key = Some b
         ∧ BenchmarkManager.gap_divisor b ≠ 0.

End BenchmarkRows.

(** ** Sample inputs *)

Module Samples.




(** An override dict: one well-formed entry for a registered name, one
    entry under an unregistered name, one entry that is not a dict. *)
Definition roas_override : BenchmarkManager.kwargs :=
  {| BenchmarkManager.kw_industry_min := Some (qz 3);
     BenchmarkManager.kw_industry_max := Some (qz 5);
     BenchmarkManager.kw_excellent := Some (qz 6);
     BenchmarkManager.kw_alert_threshold := Some (qz 2);
     BenchmarkManager.kw_higher_better := None;
     BenchmarkManager.kw_other := [] |}.

Definition custom_mixed : list (string * BenchmarkManager.override) :=
  [("ROAS", BenchmarkManager.OvDict roas_override);
   ("Reach", BenchmarkManager.OvDict roas_override);
   ("CPC", BenchmarkManager.OvOther)].


(** The periods {1: 10, 3: 10, 7: 5} of the metric roas. *)
Definition roas_10_10_5 : gmap Z (gmap string Qc) :=
  <[7%Z := <["roas" := qz 5]> ∅]> (<[1%Z := <["roas" := qz 10]> ∅]>
  (<[3%Z := <["roas" := qz 10]> ∅]> ∅)).

(** Three records from Monday to Wednesday, one without a date. *)
Definition weekdays_only : list TrendAnalyzer.daily :=
  [ {| TrendAnalyzer.date_start := Some "2024-04-29";
       TrendAnalyzer.metrics := <["roas" := qz 4]> ∅ |};
    {| TrendAnalyzer.date_start := Some "2024-04-30";
       TrendAnalyzer.metrics := <["roas" := qz 2]> ∅ |};
    {| TrendAnalyzer.date_start := None;
       TrendAnalyzer.metrics := <["roas" := qz 9]> ∅ |};
    {| TrendAnalyzer.date_start := Some "2024-05-01";
       TrendAnalyzer.metrics := <["roas" := qz 3]> ∅ |} ].

(** The default alert thresholds of the settings: 2.0, 2.0, 100.0, 4.0. *)
Definition default_detector : AnomalyDetector.detector :=
  {| AnomalyDetector.roas_min := qz 2; AnomalyDetector.cpc_max := qz 2;
     AnomalyDetector.no_conversion_spend := qz 100;
     AnomalyDetector.frequency_max := qz 4 |}.

(** An aggregate with roas 1.0, spend 150 and no conversion. *)
Definition weak_account : gmap string Qc :=
  <["roas" := qz 1]> (<["spend" := qz 150]> (<["conversions" := 0]>
  (<["cpc" := dec 15 10]> (<["frequency" := qz 3]> ∅)))).

(** An aggregate that breaks all four thresholds at once. *)
Definition failing_account : gmap string Qc :=
  <["roas" := qz 1]> (<["spend" := qz 150]> (<["conversions" := 0]>
  (<["cpc" := qz 3]> (<["frequency" := qz 6]> ∅)))).

(** Two critical anomalies of different metrics with one suggestion. *)
Definition alike_anomalies : list AnomalyDetector.Anomaly :=
  [ {| AnomalyDetector.metric := "ROAS"; AnomalyDetector.value := qz 1;
       AnomalyDetector.threshold := AnomalyDetector.ThNum (qz 2);
       AnomalyDetector.campaign := "Account"; AnomalyDetector.severity := "critical";
       AnomalyDetector.suggestion := "请检查转化跟踪设置";
       AnomalyDetector.timestamp := "t0" |};
    {| AnomalyDetector.metric := "转化"; AnomalyDetector.value := 0;
       AnomalyDetector.threshold := AnomalyDetector.ThText "花费>$100但无转化";
       AnomalyDetector.campaign := "Account"; AnomalyDetector.severity := "critical";
       AnomalyDetector.suggestion := "请检查转化跟踪设置";
       AnomalyDetector.timestamp := "t1" |} ].

(** A benchmark evaluation in which all six metrics raise an alert. *)
Definition alert_row : ReportGenerator.evaluation :=
  {| ReportGenerator.ev_value := 0; ReportGenerator.ev_benchmark_range := "";
     ReportGenerator.ev_excellent := 0; ReportGenerator.ev_status := "critical";
     ReportGenerator.ev_rating := "🚨"; ReportGenerator.ev_gap_percent := 0;
     ReportGenerator.is_alert := true |}.

Definition all_alerts : list (string * ReportGenerator.evaluation) :=
  (λ metric, (metric, alert_row))
    <$> ["ROAS"; "CPC"; "CTR"; "CPA"; "Frequency"; "ConversionRate"].

End Samples.

Module MoreSamples.

Definition one_to_five : list Qc := [qz 1; qz 2; qz 3; qz 4; qz 5].

End MoreSamples.

(** * Verification *)

Import Samples.

(** ** Runtime fragment *)

Lemma sub_insert_eq (d : gmap string Qc) k v : sub (<[k := v]> d) k = v.
Proof. unfold sub. by rewrite lookup_insert_eq. Qed.

Lemma sub_insert_ne (d : gmap string Qc) k k' v : k ≠ k' → sub (<[k := v]> d) k' = sub d k'.
Proof. intros. unfold sub. by rewrite lookup_insert_ne. Qed.

Lemma get_insert_eq (d : gmap string Qc) k v : get (<[k := v]> d) k = v.
Proof. unfold get. by rewrite lookup_insert_eq. Qed.

Lemma get_insert_ne (d : gmap string Qc) k k' v : k ≠ k' → get (<[k := v]> d) k' = get d k'.
Proof. intros. unfold get. by rewrite lookup_insert_ne. Qed.

Lemma truediv_Ok a b : b ≠ 0 → truediv a b = Ok (a / b).
Proof. intros. unfold truediv. by rewrite decide_False. Qed.

Lemma truediv_zero a : truediv a 0 = Raise ZeroDivisionError.
Proof. unfold truediv. by rewrite decide_True. Qed.

Lemma Qclt_ne (a : Qc) : 0 < a → a ≠ 0.
Proof. intros H ->. by apply Qclt_not_eq in H. Qed.

Lemma Qclt_0_irrefl : ¬ (0 : Qc) < 0.
Proof. apply (irreflexivity Qclt). Qed.

Lemma qz_pos z : (0 < z)%Z → 0 < qz z.
Proof. intros H. by apply (Z2Qc_inj_lt 0 z). Qed.

Lemma Qcdiv_0_l (a : Qc) : 0 / a = 0.
Proof. unfold Qcdiv. ring. Qed.

Ltac dict_simpl :=
  repeat first
    [ rewrite sub_insert_eq | rewrite get_insert_eq
    | rewrite sub_insert_ne by done | rewrite get_insert_ne by done ].

Example round_33_33 : round (qz 100 / qz 3) 2 = dec 3333 100.
Proof. apply (bool_decide_unpack _). by vm_compute. Qed.

Example round_half_cases :
  round (dec 5 10) 0 = 0 ∧ round (dec 15 10) 0 = qz 2 ∧ round (dec (-25) 10) 0 = qz (-2)
  ∧ round (dec 12345 1000) 2 = dec 1234 100 ∧ round (qz 7) 2 = qz 7.
Proof. repeat split; apply (bool_decide_unpack _); by vm_compute. Qed.

Example decimal_readers :
  decimal_int "120" = Some 120%Z ∧ decimal_int "-7" = Some (-7)%Z ∧ decimal_int "1.5" = None
  ∧ decimal_float "12.50" = Some (dec 25 2) ∧ decimal_float "3" = Some (qz 3)
  ∧ decimal_float "abc" = None.
Proof. repeat split; apply (bool_decide_unpack _); by vm_compute. Qed.

Example iso_weekday_cases :
  iso_weekday "2024-05-01" = Some 2%nat ∧ iso_weekday "2024-05-04" = Some 5%nat
  ∧ iso_weekday "2024-05-05" = Some 6%nat ∧ iso_weekday "1970-01-01" = Some 3%nat
  ∧ iso_weekday "2024-02-30" = None ∧ iso_weekday "yesterday" = None
  ∧ iso_weekday "2000-02-29" = Some 1%nat.
Proof. split_and!; vm_compute; reflexivity. Qed.

(** ** Aggregation *)

Import MetaApi.

Section AggregateFacts.
Variable int_of_str : string → option Z.
Variable float_of_str : string → option Qc.

Abbreviation derive_ := MetaApi.derive.
Abbreviation aggregate := (MetaApi.aggregate_metrics int_of_str float_of_str).
Abbreviation add_items_ := (MetaApi.add_items int_of_str float_of_str).

(** The one division of [derive] that is not guarded by its own divisor. *)
Lemma derive_raises t :
  0 < sub t "conversions" → sub t "clicks" = 0 → derive t = Raise ZeroDivisionError.
Proof.
  intros Hconv Hclk. unfold derive.
  destruct (decide (0 < sub t "impressions")) as [Hi|Hi].
  - rewrite truediv_Ok by by apply Qclt_ne. cbn. dict_simpl.
    rewrite decide_False by (rewrite Hclk; apply Qclt_0_irrefl).
    cbn. dict_simpl. rewrite decide_True by done.
    rewrite truediv_Ok by by apply Qclt_ne. cbn. dict_simpl.
    by rewrite Hclk, truediv_zero.
  - cbn. dict_simpl.
    rewrite decide_False by (rewrite Hclk; apply Qclt_0_irrefl).
    cbn. dict_simpl. rewrite decide_True by done.
    rewrite truediv_Ok by by apply Qclt_ne. cbn. dict_simpl.
    by rewrite Hclk, truediv_zero.
Qed.


(** The summing loop leaves the day count alone. *)
Lemma add_item_days t it t' :
  MetaApi.add_item int_of_str float_of_str t it = Ok t' → sub t' "days" = sub t "days".
Proof.
  unfold add_item. intros H.
  repeat match type of H with
         | context [mbind _ ?m] =>
             let E := fresh in destruct m eqn:E; cbn [mbind result_bind bind] in H; try done
         end.
  injection H as <-. by dict_simpl.
Qed.

Lemma add_items_days data : ∀ t t', add_items_ t data = Ok t' → sub t' "days" = sub t "days".
Proof.
  induction data as [|it rest IH]; intros t t' H; cbn in H.
  - by injection H as <-.
  - destruct (add_item _ _ t it) as [t1|] eqn:E; cbn in H; [|done].
    rewrite (IH _ _ H). by eapply add_item_days.
Qed.

Lemma set_nonempty v l : set_ (v :: l) ≠ [].
Proof.
  induction l as [|w l IH] in v |- *; cbn; [done|].
  cbn in IH. destruct (existsb (eqb w) (set_ l)) eqn:Ew.
  - apply IH.
  - cbn. destruct (eqb v w || existsb (eqb v) (set_ l)); [|done].
    specialize (IH w). by rewrite Ew in IH.
Qed.

(** A non-empty input always counts at least one distinct day, so the
    divisor of [frequency] is never zero when [derive] runs. *)
Lemma aggregate_days_positive it data t :
  add_items_ (initial_total (it :: data)) (it :: data) = Ok t → 0 < sub t "days".
Proof.
  intros H. rewrite (add_items_days _ _ _ H). unfold initial_total. dict_simpl.
  apply qz_pos.
  pose proof (set_nonempty (item_get_none it "date_start")
                ((λ d, item_get_none d "date_start") <$> data)) as Hne.
  rewrite fmap_cons. destruct (set_ _); [done | cbn; lia].
Qed.


(** Conversions recorded without any click make aggregation fault: the
    division for conversion_rate sits under the guard on conversions. *)
Lemma aggregate_conversions_without_clicks it rest t :
  add_items_ (initial_total (it :: rest)) (it :: rest) = Ok t →
  0 < sub t "conversions" → sub t "clicks" = 0 →
  aggregate (it :: rest) = Raise ZeroDivisionError.
Proof.
  intros Hsum Hconv Hclk. unfold aggregate_metrics. rewrite Hsum.
  cbn [mbind result_bind bind]. by apply derive_raises.
Qed.

End AggregateFacts.



(** ** Benchmark table and evaluator *)

Import BenchmarkManager.

Section EvaluateFacts.
Variable str : Qc → string.

Abbreviation evaluate_ := (BenchmarkManager.evaluate str).

(** The status chosen by the source's two [if] chains is the one the
    specification describes, and it is never ["unknown"]. *)
Lemma status_spec_known b v : status_spec b v ≠ "unknown".
Proof. unfold status_spec. repeat case_match; done. Qed.



(** What [evaluate] does on a registered metric. *)
Lemma evaluate_registered self metric b v :
  get_benchmark self metric = Some b →
  (gap_divisor b ≠ 0 →
     ∃ r, evaluate_ self metric v = Ok r
          ∧ r !! "status" = Some (PStr (status_spec b v))
          ∧ r !! "is_alert" = Some (PBool (bool_decide (status_spec b v = "critical"))))
  ∧ (gap_divisor b = 0 → evaluate_ self metric v = Raise ZeroDivisionError).
Proof.
  intros Hb. unfold evaluate, gap_divisor, status_spec. rewrite Hb.
  split; intros Hd.
  - destruct (higher_better b); repeat case_decide; try done;
      rewrite truediv_Ok by done; cbn [mbind result_bind bind];
      eexists; (split; [reflexivity|]); by simplify_map_eq.
  - destruct (higher_better b); repeat case_decide; try done;
      by rewrite Hd, truediv_zero.
Qed.

(** Every built-in definition has a non-zero gap divisor, so on the
    built-in table [evaluate] always returns. *)
Lemma BENCHMARKS_gap_divisor metric b : BENCHMARKS !! metric = Some b → gap_divisor b ≠ 0.
Proof.
  intros Hb.
  assert (HF : map_Forall (λ (_ : string) b, gap_divisor b ≠ 0) BENCHMARKS)
    by (apply (bool_decide_unpack _); by vm_compute).
  exact (HF _ _ Hb).
Qed.

Lemma evaluate_builtin metric b v :
  BENCHMARKS !! metric = Some b →
  ∃ r, evaluate_ {| benchmarks := BENCHMARKS |} metric v = Ok r
       ∧ r !! "status" = Some (PStr (status_spec b v)).
Proof.
  intros Hb.
  destruct (evaluate_registered {| benchmarks := BENCHMARKS |} metric b v Hb) as [H _].
  destruct (H (BENCHMARKS_gap_divisor _ _ Hb)) as (r & ? & ? & _). eauto.
Qed.

(** An unregistered name takes the early return: a dict of two keys. *)
Lemma evaluate_unregistered self metric v :
  get_benchmark self metric = None →
  evaluate_ self metric v
  = Ok (<["message" := PStr "未知指标"]> (<["status" := PStr "unknown"]> ∅)).
Proof. intros Hb. unfold evaluate. by rewrite Hb. Qed.


End EvaluateFacts.


(** C4, run on an unregistered name: the result carries the status
    ["unknown"] and a message, and no gap at all. *)
Theorem evaluate_unknown_no_gap :
  ∃ r, evaluate show_ratio {| benchmarks := BENCHMARKS |} "Reach" (qz 7) = Ok r
       ∧ r !! "status" = Some (PStr "unknown")
       ∧ r !! "gap_percent" = None
       ∧ dom r = {["status"; "message"]}.
Proof.
  eexists. split; [apply evaluate_unregistered; by vm_compute|].
  split_and!; [by simplify_map_eq..|set_solver].
Qed.

(** ** Custom benchmark overrides *)

Lemma apply_custom_dom custom : ∀ self self',
  _apply_custom_benchmarks self custom = Ok self' →
  dom (benchmarks self') = dom (benchmarks self).
Proof.
  induction custom as [|[metric values] rest IH]; intros self self' H; cbn in H.
  - by injection H as <-.
  - destruct (benchmarks self !! metric) as [old|] eqn:Hm; [destruct values as [kw|]|];
      try by apply IH.
    destruct (new_MetricBenchmark kw) as [b|] eqn:Hb; cbn in H; [|done].
    rewrite (IH _ _ H). cbn. by apply dom_insert_lookup_L.
Qed.

Lemma apply_custom_frame custom : ∀ self self' metric,
  _apply_custom_benchmarks self custom = Ok self' →
  (∀ kw, (metric, OvDict kw) ∉ custom) →
  benchmarks self' !! metric = benchmarks self !! metric.
Proof.
  induction custom as [|[m values] rest IH]; intros self self' metric H Hnot; cbn in H.
  - by injection H as <-.
  - assert (Hrest : ∀ kw, (metric, OvDict kw) ∉ rest).
    { intros kw Hin. apply (Hnot kw). by right. }
    destruct (benchmarks self !! m) as [old|] eqn:Hm; [destruct values as [kw|]|];
      try by apply IH.
    destruct (new_MetricBenchmark kw) as [b|] eqn:Hb; cbn in H; [|done].
    rewrite (IH _ _ _ H Hrest). cbn. apply lookup_insert_ne.
    intros ->. apply (Hnot kw). by left.
Qed.

(** An entry under a name the table does not hold, or whose value is not
    a dict, can be dropped from the override dict without any effect. *)
Lemma apply_custom_ignored c1 : ∀ self c2 metric values,
  benchmarks self !! metric = None ∨ values = OvOther →
  _apply_custom_benchmarks self (c1 ++ (metric, values) :: c2)
  = _apply_custom_benchmarks self (c1 ++ c2).
Proof.
  induction c1 as [|[m vs] c1 IH]; intros self c2 metric values Hign; cbn.
  - destruct Hign as [-> | ->]; [done|]. by destruct (benchmarks self !! metric).
  - destruct (benchmarks self !! m) as [old|] eqn:Hm; [destruct vs as [kw|]|];
      try by apply IH.
    destruct (new_MetricBenchmark kw) as [b|]; cbn [mbind result_bind bind]; [|done].
    apply IH. destruct Hign as [Hnone | ->]; [left|by right].
    cbn. rewrite lookup_insert_ne; [done|]. intros ->. by rewrite Hnone in Hm.
Qed.

(** Construction succeeds when every entry that is applied is well formed. *)
Lemma apply_custom_returns custom : ∀ self,
  (∀ metric kw, (metric, OvDict kw) ∈ custom → is_Some (benchmarks self !! metric) →
                is_Ok (new_MetricBenchmark kw)) →
  is_Ok (_apply_custom_benchmarks self custom).
Proof.
  induction custom as [|[m vs] rest IH]; intros self Hwf; cbn.
  - by eexists.
  - assert (Hrest : ∀ self', dom (benchmarks self') = dom (benchmarks self) →
              is_Ok (_apply_custom_benchmarks self' rest)).
    { intros self' Hdom. apply IH. intros metric kw Hin Hsome.
      apply (Hwf metric kw); [by right|].
      apply (elem_of_dom (D := gset string)). rewrite <- Hdom.
      by apply (elem_of_dom (D := gset string)). }
    destruct (benchmarks self !! m) as [old|] eqn:Hm; [destruct vs as [kw|]|];
      try by apply Hrest.
    destruct (Hwf m kw) as [b Hb]; [by left | by rewrite Hm |].
    rewrite Hb. cbn [mbind result_bind bind]. apply Hrest. cbn.
    by apply dom_insert_lookup_L.
Qed.

Lemma BENCHMARKS_dom :
  dom BENCHMARKS
  = ({["ROAS"; "CPC"; "CTR"; "CPA"; "Frequency"; "ConversionRate"]} : gset string).
Proof. apply (bool_decide_unpack _). by vm_compute. Qed.

(** C9: for every manager that construction yields, the registered names
    are exactly the six built-in ones; an entry of the table is changed
    only if the override dict holds a dict under that name; and an override
    under an unregistered name, or whose value is not a dict, is ignored:
    dropping it from the override dict yields the same manager. *)
Theorem custom_benchmarks_frame custom self :
  __init__ custom = Ok self →
  dom (benchmarks self)
  = ({["ROAS"; "CPC"; "CTR"; "CPA"; "Frequency"; "ConversionRate"]} : gset string)
  ∧ (∀ metric, (∀ kw, (metric, OvDict kw) ∉ default [] custom) →
       benchmarks self !! metric = BENCHMARKS !! metric)
  ∧ (∀ c1 c2 metric values,
       custom = Some (c1 ++ (metric, values) :: c2) →
       BENCHMARKS !! metric = None ∨ values = OvOther →
       __init__ (Some (c1 ++ c2)) = Ok self).
Proof.
  intros H.
  assert (Happ : _apply_custom_benchmarks {| benchmarks := BENCHMARKS |} (default [] custom)
                 = Ok self).
  { unfold __init__ in H. destruct custom as [[|e rest]|]; exact H. }
  split_and!.
  - rewrite <- BENCHMARKS_dom. by apply (apply_custom_dom _ _ _ Happ).
  - intros metric Hnot. by apply (apply_custom_frame _ _ _ _ Happ).
  - intros c1 c2 metric values -> Hign. cbn in Happ.
    rewrite apply_custom_ignored in Happ by done.
    unfold __init__. by destruct (c1 ++ c2).
Qed.

Lemma custom_benchmarks_frame_witness :
  ∃ self, __init__ (Some custom_mixed) = Ok self
    ∧ dom (benchmarks self)
      = ({["ROAS"; "CPC"; "CTR"; "CPA"; "Frequency"; "ConversionRate"]} : gset string)
    ∧ (∀ metric, (∀ kw, (metric, OvDict kw) ∉ custom_mixed) →
         benchmarks self !! metric = BENCHMARKS !! metric)
    ∧ (∀ c1 c2 metric values,
         Some custom_mixed = Some (c1 ++ (metric, values) :: c2) →
         BENCHMARKS !! metric = None ∨ values = OvOther →
         __init__ (Some (c1 ++ c2)) = Ok self).
Proof.
  eexists. split; [vm_compute; reflexivity|].
  apply (custom_benchmarks_frame (Some custom_mixed)).
  vm_compute. reflexivity.
Defined.

(** The overrides of [custom_mixed]: ROAS is replaced, nothing else moves. *)
Example custom_mixed_effect :
  ∃ self, __init__ (Some custom_mixed) = Ok self
    ∧ (industry_min <$> benchmarks self !! "ROAS") = Some (qz 3)
    ∧ benchmarks self !! "CPC" = BENCHMARKS !! "CPC"
    ∧ benchmarks self !! "Reach" = None.
Proof.
  eexists. split; [vm_compute; reflexivity|].
  split_and!; apply (bool_decide_unpack _); by vm_compute.
Qed.

(** A dict that lacks a required field makes construction raise. *)
Example custom_incomplete :
  __init__ (Some [("CTR", OvDict {| kw_industry_min := Some (qz 1); kw_industry_max := None;
                                    kw_excellent := None; kw_alert_threshold := None;
                                    kw_higher_better := None; kw_other := [] |})])
  = Raise TypeError.
Proof. reflexivity. Qed.

(** ** Status transitions *)

Import BenchmarkAnalyzer.

Lemma index_absent l x : x ∉ l → index l x = Raise ValueError.
Proof.
  induction l as [|y l IH]; [done|]. intros Hx. cbn.
  rewrite decide_False by (intros ->; apply Hx; by left).
  rewrite IH; [done|]. intros ?. apply Hx. by right.
Qed.

Lemma index_present l x : x ∈ l → ∃ n, index l x = Ok n.
Proof.
  induction l as [|y l IH]; [by intros ?%elem_of_nil|]. intros Hx. cbn.
  destruct (decide (y = x)) as [|Hne]; [by eexists|].
  apply elem_of_cons in Hx as [->|Hx]; [done|].
  destruct (IH Hx) as [k ->]. by eexists.
Qed.

(** What one [index] lookup of the source yields. *)
Lemma position_lookup status :
  (if bool_decide (status ≠ "") then index status_order status else Ok 1%nat)
  = if decide (placeable status) then Ok (position_spec status) else Raise ValueError.
Proof.
  unfold placeable, position_spec. case_bool_decide as Hne.
  - destruct (decide (status ∈ status_order)) as [Hin|Hout].
    + rewrite decide_True by by right. by destruct (index_present _ _ Hin) as [n ->].
    + rewrite decide_False by by intros [?|?]. by apply index_absent.
  - rewrite Hne. by rewrite decide_True by by left.
Qed.

(** C3 (as amended): [_get_status_change] always returns; when both
    statuses are placeable (missing, or one of critical, warning, good,
    excellent) it compares their positions in that ordering, a missing
    status standing at the position of warning, and answers improved,
    declined or stable; when either status is a non-empty text outside the
    ordering it answers stable.  In particular critical→excellent is
    improved, good→good is stable, excellent→warning is declined. *)
Theorem status_change_positions previous current :
  _get_status_change previous current
  = Ok (if decide (placeable previous ∧ placeable current)
        then status_delta_spec previous current else "stable")
  ∧ _get_status_change "critical" "excellent" = Ok "improved"
  ∧ _get_status_change "good" "good" = Ok "stable"
  ∧ _get_status_change "excellent" "warning" = Ok "declined".
Proof.
  split; [|split_and!; vm_compute; reflexivity].
  unfold _get_status_change. rewrite !position_lookup.
  destruct (decide (placeable previous)) as [Hp|Hp]; cbn [mbind result_bind bind].
  - destruct (decide (placeable current)) as [Hc|Hc]; cbn [mbind result_bind bind].
    + rewrite (decide_True (P := placeable previous ∧ placeable current)) by done.
      unfold status_delta_spec.
      repeat case_decide; cbn; first [done | lia].
    + by rewrite (decide_False (P := placeable previous ∧ placeable current))
        by by intros [_ ?].
  - by rewrite (decide_False (P := placeable previous ∧ placeable current))
      by by intros [? _].
Qed.

(** C3 fails as stated: an unrecognized status is not placed at the
    position of warning; the answer is stable whatever the other status. *)
Lemma status_change_unrecognized_counterexample :
  _get_status_change "unknown" "excellent" = Ok "stable"
  ∧ status_delta_spec "unknown" "excellent" = "improved".
Proof. split; vm_compute; reflexivity. Qed.

(** ** Period comparison *)

Import TrendAnalyzer.

Lemma round_0 n : round 0 n = 0.
Proof.
  unfold round. replace (0 * qz (10 ^ Z.of_nat n)) with (0 : Qc) by ring.
  change (round_half_even 0) with 0%Z. apply Qcdiv_0_l.
Qed.










(** ** Multi-period trend *)







(** ** Weekly pattern *)

Section WeeklyFacts.
Variable weekday_of : string → option nat.

Abbreviation buckets_ := (TrendAnalyzer.buckets weekday_of).
Abbreviation detect_weekly_pattern_ := (TrendAnalyzer.detect_weekly_pattern weekday_of).
Abbreviation all_on_weekdays := (TrendAnalyzer.all_on_weekdays weekday_of).

Lemma buckets_weekend_untouched daily_data metric : ∀ weekday_values weekend_values,
  all_on_weekdays daily_data →
  (buckets_ daily_data metric weekday_values weekend_values).2 = weekend_values.
Proof.
  induction daily_data as [|item rest IH]; intros wd we Hall; [done|].
  assert (Hrest : all_on_weekdays rest).
  { intros it s w Hin. apply Hall. by right. }
  cbn [buckets]. case_decide as Hempty; [by apply IH|].
  destruct (weekday_of (default "" (date_start item))) as [w|] eqn:Hw; [|by apply IH].
  case_decide as Hlt; [by apply IH|].
  exfalso. apply Hlt.
  destruct (date_start item) as [s|] eqn:Hs; [|done].
  apply (Hall item s w); [by left|done..].
Qed.

(** C10: when every usable record falls on a weekday, the weekend bucket
    is empty, so [detect_weekly_pattern] returns weekend average 0 and
    ratio 0, and, 0 being below 0.9, the label of a stronger weekend. *)
Theorem weekly_pattern_without_weekend daily_data metric :
  all_on_weekdays daily_data →
  ∃ r, detect_weekly_pattern_ daily_data metric = Ok r
    ∧ weekend_avg r = 0 ∧ ratio r = 0 ∧ pattern r = "周末表现更好".
Proof.
  intros Hall. unfold detect_weekly_pattern.
  pose proof (buckets_weekend_untouched daily_data metric [] [] Hall) as Hwe.
  destruct (buckets_ daily_data metric [] []) as [wd we]. cbn in Hwe. subst we.
  assert (Hwd : ∃ avg, match wd with [] => Ok 0 | _ :: _ => mean wd end = Ok avg).
  { destruct wd; by eexists. }
  destruct Hwd as [avg ->]. cbn [mbind result_bind bind].
  rewrite (decide_False (P := 0 < 0)) by apply Qclt_0_irrefl.
  cbn [mbind result_bind bind].
  eexists. split; [reflexivity|]. cbn.
  split_and!; [apply round_0..|].
  by rewrite decide_True by (apply (bool_decide_unpack _); by vm_compute).
Qed.

End WeeklyFacts.

Lemma weekly_pattern_without_weekend_witness :
  ∃ r, detect_weekly_pattern iso_weekday weekdays_only "roas" = Ok r
    ∧ weekend_avg r = 0 ∧ ratio r = 0 ∧ pattern r = "周末表现更好".
Proof.
  apply (weekly_pattern_without_weekend iso_weekday weekdays_only "roas").
  intros item date_str weekday Hin Hdate Hne Hwd.
  unfold weekdays_only in Hin.
  repeat (apply elem_of_cons in Hin as [-> | Hin]);
    [cbn in Hdate; try discriminate Hdate; injection Hdate as <-;
     vm_compute in Hwd; injection Hwd as <-; lia ..|].
  by apply elem_of_nil in Hin.
Defined.

(** The weekday average of that run is 3, from the values 4, 2 and 3. *)
Example weekdays_only_average :
  weekday_avg <$> (match detect_weekly_pattern iso_weekday weekdays_only "roas" with
                   | Ok r => Some r | Raise _ => None end) = Some (qz 3).
Proof. apply (bool_decide_unpack _). by vm_compute. Qed.

(** ** Account-level anomalies *)

Import AnomalyDetector.

Section DetectFacts.
Variable str : Qc → string.
Variable fmt_2f : Qc → string.
Variable clock : nat → string.

Abbreviation detect_account := (AnomalyDetector._detect_account_anomalies str fmt_2f clock).

(** The anomalies found, rule by rule in the order of the source. *)
Lemma detect_account_headlines self data reads :
  headline <$> (detect_account self data reads).1
  = (if bool_decide (get data "roas" < roas_min self) then [("ROAS", "critical")] else [])
    ++ (if bool_decide (cpc_max self < get data "cpc") then [("CPC", "warning")] else [])
    ++ (if bool_decide (get data "conversions" = 0 ∧ no_conversion_spend self < get data "spend")
        then [("转化", "critical")] else [])
    ++ (if bool_decide (frequency_max self < get data "frequency")
        then [("Frequency", "warning")] else []).
Proof.
  unfold _detect_account_anomalies, append_if, new_Anomaly.
  rewrite (bool_decide_and (get data "conversions" = 0)).
  destruct (bool_decide (get data "roas" < roas_min self));
    destruct (bool_decide (cpc_max self < get data "cpc"));
    destruct (bool_decide (get data "conversions" = 0));
    destruct (bool_decide (no_conversion_spend self < get data "spend"));
    destruct (bool_decide (frequency_max self < get data "frequency"));
    reflexivity.
Qed.

Lemma detect_account_scope self data reads a :
  a ∈ (detect_account self data reads).1 → campaign a = "Account".
Proof.
  unfold _detect_account_anomalies, append_if, new_Anomaly.
  destruct (bool_decide (get data "roas" < roas_min self));
    destruct (bool_decide (cpc_max self < get data "cpc"));
    destruct (bool_decide (get data "conversions" = 0));
    destruct (bool_decide (no_conversion_spend self < get data "spend"));
    destruct (bool_decide (frequency_max self < get data "frequency"));
    cbn; intros Hin;
    repeat (apply elem_of_cons in Hin as [-> | Hin]; [reflexivity|]);
    by apply elem_of_nil in Hin.
Qed.

(** C7: the four account-level rules are independent: the anomalies of one
    call are those of the rules whose own condition holds, in the order
    ROAS (critical, roas < roas_min), CPC (warning, cpc > cpc_max),
    conversions (critical, conversions = 0 and spend > no_conversion_spend),
    frequency (warning, frequency > frequency_max), all under the scope
    Account; all four fire on one aggregate that breaks every threshold;
    and the aggregate with roas 1.0 against roas_min 2.0, spend 150 against
    no_conversion_spend 100 and no conversion, cpc and frequency within
    their thresholds, yields exactly the two critical anomalies. *)
Theorem account_rules_independent self data reads :
  let found := (detect_account self data reads).1 in
  headline <$> found
  = (if bool_decide (get data "roas" < roas_min self) then [("ROAS", "critical")] else [])
    ++ (if bool_decide (cpc_max self < get data "cpc") then [("CPC", "warning")] else [])
    ++ (if bool_decide (get data "conversions" = 0 ∧ no_conversion_spend self < get data "spend")
        then [("转化", "critical")] else [])
    ++ (if bool_decide (frequency_max self < get data "frequency")
        then [("Frequency", "warning")] else [])
  ∧ (∀ a, a ∈ found → campaign a = "Account")
  ∧ headline <$> (detect_account default_detector failing_account reads).1
    = [("ROAS", "critical"); ("CPC", "warning"); ("转化", "critical"); ("Frequency", "warning")]
  ∧ (get data "roas" = qz 1 → roas_min self = qz 2 →
     get data "spend" = qz 150 → get data "conversions" = 0 →
     no_conversion_spend self = qz 100 →
     get data "cpc" ≤ cpc_max self → get data "frequency" ≤ frequency_max self →
     headline <$> found = [("ROAS", "critical"); ("转化", "critical")]).
Proof.
  cbn zeta. split_and!.
  - apply detect_account_headlines.
  - intros a. apply detect_account_scope.
  - rewrite detect_account_headlines. apply (bool_decide_unpack _). by vm_compute.
  - intros Hroas Hmin Hspend Hconv Hncs Hcpc Hfreq.
    rewrite detect_account_headlines, Hroas, Hmin, Hspend, Hconv, Hncs.
    rewrite (bool_decide_eq_true_2 (qz 1 < qz 2)) by (apply (bool_decide_unpack _); by vm_compute).
    rewrite (bool_decide_eq_false_2 (cpc_max self < get data "cpc"))
      by by apply Qcle_not_lt.
    rewrite (bool_decide_eq_true_2 (0 = 0 ∧ qz 100 < qz 150))
      by (apply (bool_decide_unpack _); by vm_compute).
    rewrite (bool_decide_eq_false_2 (frequency_max self < get data "frequency"))
      by by apply Qcle_not_lt.
    reflexivity.
Qed.

End DetectFacts.

Lemma account_rules_independent_witness :
  headline <$> (_detect_account_anomalies show_ratio show_ratio no_clock
                  default_detector weak_account 0).1
  = [("ROAS", "critical"); ("转化", "critical")].
Proof.
  apply (account_rules_independent show_ratio show_ratio no_clock
           default_detector weak_account 0%nat);
    apply (bool_decide_unpack _); vm_compute; exact I.
Defined.

(** The two anomalies of that run, with the clock read twice. *)
Example weak_account_anomalies :
  let '(found, reads) := _detect_account_anomalies show_ratio show_ratio no_clock
                           default_detector weak_account 0 in
  reads = 2%nat ∧ timestamp <$> found = ["t0"; "t1"] ∧ value <$> found = [qz 1; 0].
Proof. vm_compute. by split_and!. Qed.

(** ** Recommendations *)

Import ReportGenerator.

Lemma fromkeys_from l : ∀ keys,
  foldl (λ keys k, if decide (k ∈ keys) then keys else keys ++ [k]) keys l
  = keys ++ first_occurrences_from keys l.
Proof.
  induction l as [|x l IH]; intros keys; cbn.
  - by rewrite app_nil_r.
  - case_decide; [by apply IH|]. by rewrite IH, <- app_assoc.
Qed.

(** The dict-based de-duplication of the source keeps first occurrences. *)
Lemma fromkeys_first_occurrences l : fromkeys l = first_occurrences l.
Proof. unfold fromkeys, first_occurrences. by rewrite fromkeys_from. Qed.

Lemma first_occurrences_from_elem l : ∀ seen x,
  x ∈ first_occurrences_from seen l ↔ x ∈ l ∧ x ∉ seen.
Proof.
  induction l as [|y l IH]; intros seen x; cbn.
  - split; [by intros ?%elem_of_nil | by intros [?%elem_of_nil _]].
  - case_decide as Hy.
    + rewrite IH, elem_of_cons. split.
      * intros [Hin Hseen]. split; [by right | done].
      * intros [[-> | Hin] Hseen]; [done | by split].
    + rewrite elem_of_cons, IH, elem_of_app, list_elem_of_singleton, elem_of_cons.
      split.
      * intros [-> | [Hin Hseen]]; [by split; [left|] | split; [by right|]].
        intros ?. apply Hseen. by left.
      * intros [[-> | Hin] Hseen]; [by left|].
        destruct (decide (x = y)) as [->|Hne]; [by left|].
        right. split; [done|]. by intros [?|?].
Qed.

Lemma first_occurrences_from_NoDup l : ∀ seen, NoDup (first_occurrences_from seen l).
Proof.
  induction l as [|y l IH]; intros seen; cbn; [constructor|].
  case_decide; [by apply IH|]. constructor; [|by apply IH].
  rewrite first_occurrences_from_elem, elem_of_app, list_elem_of_singleton.
  intros [_ Hseen]. apply Hseen. by right.
Qed.

Lemma first_occurrences_elem l x : x ∈ first_occurrences l ↔ x ∈ l.
Proof.
  unfold first_occurrences. rewrite first_occurrences_from_elem.
  split; [by intros [? _] | intros ?; split; [done | by intros ?%elem_of_nil]].
Qed.

(** C8: the recommendation list is the collected list with duplicates
    removed, first occurrences kept in order, cut to its first five
    entries: no text occurs twice, the length never exceeds 5, every entry
    was collected, and nothing is lost while at most five distinct texts
    were collected; two critical anomalies with one suggestion text give
    one entry, and nine collected entries give five. *)
Theorem insights_deduplicated comparison trend_analysis benchmark_evaluation anomalies :
  let collected := collect_insights comparison trend_analysis benchmark_evaluation anomalies in
  let insights := _generate_insights comparison trend_analysis benchmark_evaluation anomalies in
  insights = take 5 (first_occurrences collected)
  ∧ (length insights ≤ 5)%nat
  ∧ NoDup insights
  ∧ (∀ s, s ∈ insights → s ∈ collected)
  ∧ ((length (first_occurrences collected) ≤ 5)%nat → ∀ s, s ∈ collected → s ∈ insights)
  ∧ (let twice := collect_insights ∅ (analyze_multi_period ∅) [] alike_anomalies in
     twice = ["💡 请检查转化跟踪设置"; "💡 请检查转化跟踪设置"]
     ∧ _generate_insights ∅ (analyze_multi_period ∅) [] alike_anomalies
       = ["💡 请检查转化跟踪设置"])
  ∧ (length (collect_insights ∅ (analyze_multi_period roas_10_10_5) all_alerts alike_anomalies)
     = 9%nat
     ∧ length (_generate_insights ∅ (analyze_multi_period roas_10_10_5) all_alerts
                 alike_anomalies) = 5%nat).
Proof.
  cbn zeta. unfold _generate_insights. rewrite fromkeys_first_occurrences.
  set (collected := collect_insights comparison trend_analysis benchmark_evaluation anomalies).
  split_and!.
  - done.
  - rewrite length_take. lia.
  - eapply sublist_NoDup; [|apply sublist_take].
    apply first_occurrences_from_NoDup.
  - intros s Hs. apply first_occurrences_elem. by eapply subseteq_take.
  - intros Hlen s Hs. rewrite take_ge by done. by apply first_occurrences_elem.
  - vm_compute. reflexivity.
  - vm_compute. reflexivity.
  - vm_compute. reflexivity.
  - vm_compute. reflexivity.
Qed.

(** * Further properties of the code *)

Import MoreSamples.

(** ** Moving average *)

Import MovingAverage.

Example moving_average_1_to_5 :
  calculate_moving_average one_to_five 3 = Ok [qz 2; qz 3; qz 4].
Proof. apply (bool_decide_unpack _). by vm_compute. Qed.

Lemma comprehension_Ok {A B} (f : A → result B) (g : A → B) l :
  (∀ x, x ∈ l → f x = Ok (g x)) → PyList.comprehension f l = Ok (g <$> l).
Proof.
  induction l as [|x l IH]; intros Hf; [done|]. cbn.
  rewrite (Hf x) by by left. cbn [mbind result_bind bind].
  rewrite IH; [done|]. intros y Hy. apply Hf. by right.
Qed.

Lemma range_elem n i : i ∈ PyList.range n ↔ (0 ≤ i < n)%Z.
Proof.
  unfold PyList.range. rewrite list_elem_of_fmap. split.
  - intros (k & -> & Hk). apply elem_of_seq in Hk. lia.
  - intros Hi. exists (Z.to_nat i). split; [lia|]. apply elem_of_seq. lia.
Qed.

Lemma range_length n : length (PyList.range n) = Z.to_nat n.
Proof. unfold PyList.range. by rewrite length_fmap, length_seq. Qed.

Lemma range_lookup n (i : nat) :
  (Z.of_nat i < n)%Z → PyList.range n !! i = Some (Z.of_nat i).
Proof.
  intros Hi. unfold PyList.range. rewrite list_lookup_fmap, lookup_seq_lt by lia. done.
Qed.

(** A slice whose bounds lie inside the list is a [take] of a [drop]. *)
Lemma slice_inside {A} (l : list A) (i w : Z) :
  (0 ≤ i)%Z → (0 ≤ w)%Z → (i + w ≤ Z.of_nat (length l))%Z →
  PyList.slice l i (i + w) = take (Z.to_nat w) (drop (Z.to_nat i) l).
Proof.
  intros Hi Hw Hlen. unfold PyList.slice.
  rewrite !decide_False by lia. rewrite !Z.min_l by lia. f_equal. lia.
Qed.

Lemma qz_0 : qz 0 = 0.
Proof. by apply Qc_is_canon. Qed.

Lemma qz_ne_0 z : z ≠ 0%Z → qz z ≠ 0.
Proof.
  intros Hz H. apply Hz. apply (Z2Qc_inj z 0). unfold qz in H. rewrite H.
  by apply Qc_is_canon.
Qed.

Lemma moving_average_windows_spec values window :
  (1 ≤ window ≤ Z.of_nat (length values))%Z →
  ∃ averages, calculate_moving_average values window = Ok averages
    ∧ Z.of_nat (length averages) = (Z.of_nat (length values) - window + 1)%Z
    ∧ ∀ i : nat, (i < length averages)%nat →
        averages !! i
        = Some (PyList.sum (take (Z.to_nat window) (drop i values)) / qz window).
Proof.
  intros Hw. unfold calculate_moving_average. rewrite decide_False by lia.
  set (n := (Z.of_nat (length values) - window + 1)%Z).
  rewrite (comprehension_Ok _
             (λ i, PyList.sum (take (Z.to_nat window) (drop (Z.to_nat i) values)) / qz window)).
  - eexists. split; [reflexivity|]. rewrite length_fmap, range_length. unfold n.
    split; [lia|].
    intros i Hi. rewrite list_lookup_fmap, range_lookup by lia. cbn.
    by rewrite Nat2Z.id.
  - intros i Hi%range_elem. unfold n in Hi.
    rewrite truediv_Ok by (apply qz_ne_0; lia).
    by rewrite slice_inside by lia.
Qed.

(** X1: with a window between 1 and the number of values, the moving
    average returns one mean per window position: [len − window + 1]
    entries, the i-th being the sum of the [window] values from position i
    divided by [window]. *)
Theorem moving_average_windows values window :
  (1 ≤ window ≤ Z.of_nat (length values))%Z →
  ∃ averages, calculate_moving_average values window = Ok averages
    ∧ Z.of_nat (length averages) = (Z.of_nat (length values) - window + 1)%Z
    ∧ ∀ i : nat, (i < length averages)%nat →
        averages !! i
        = Some (PyList.sum (take (Z.to_nat window) (drop i values)) / qz window).
Proof. apply moving_average_windows_spec. Qed.

Lemma moving_average_windows_witness :
  ∃ averages, calculate_moving_average one_to_five 3 = Ok averages
    ∧ Z.of_nat (length averages) = (Z.of_nat (length one_to_five) - 3 + 1)%Z
    ∧ ∀ i : nat, (i < length averages)%nat →
        averages !! i
        = Some (PyList.sum (take (Z.to_nat 3) (drop i one_to_five)) / qz 3).
Proof. apply (moving_average_windows one_to_five 3). cbn. lia. Defined.

(** X2: a window of 0 makes the moving average raise a division fault,
    whatever the values, the empty list included. *)
Theorem moving_average_zero_window values :
  calculate_moving_average values 0 = Raise ZeroDivisionError.
Proof.
  unfold calculate_moving_average. rewrite decide_False by lia.
  unfold PyList.range.
  replace (Z.to_nat (Z.of_nat (length values) - 0 + 1)) with (S (length values)) by lia.
  cbn [seq fmap list_fmap PyList.comprehension]. by rewrite qz_0, truediv_zero.
Qed.

Lemma sum_from a l : foldl Qcplus a l = a + PyList.sum l.
Proof.
  unfold PyList.sum. revert a. induction l as [|x l IH]; intros a; cbn.
  - ring.
  - rewrite IH, (IH (0 + x)). ring.
Qed.

Lemma sum_cons x l : PyList.sum (x :: l) = x + PyList.sum l.
Proof. unfold PyList.sum at 1. cbn. rewrite sum_from. ring. Qed.

Lemma qz_S (n : nat) : qz (Z.of_nat (S n)) = qz (Z.of_nat n) + 1.
Proof.
  unfold qz. rewrite Nat2Z.inj_succ, <- Z.add_1_r, Z2Qc_inj_add.
  f_equal; by apply Qc_is_canon.
Qed.

Lemma sum_bounds lo hi l :
  Forall (λ v, lo ≤ v ∧ v ≤ hi) l →
  qz (Z.of_nat (length l)) * lo ≤ PyList.sum l
  ∧ PyList.sum l ≤ qz (Z.of_nat (length l)) * hi.
Proof.
  induction 1 as [|x l [Hlo Hhi] _ [IHlo IHhi]].
  - simpl length. change (Z.of_nat 0) with 0%Z. rewrite qz_0.
    unfold PyList.sum. simpl foldl. split.
    + replace (0 * lo) with (0 : Qc) by ring. apply Qcle_refl.
    + replace (0 * hi) with (0 : Qc) by ring. apply Qcle_refl.
  - cbn [length]. rewrite qz_S, sum_cons. split.
    + replace ((qz (Z.of_nat (length l)) + 1) * lo)
        with (lo + qz (Z.of_nat (length l)) * lo) by ring.
      eapply Qcle_trans; [by apply Qcplus_le_mono_r|]. by apply Qcplus_le_mono_l.
    + replace ((qz (Z.of_nat (length l)) + 1) * hi)
        with (hi + qz (Z.of_nat (length l)) * hi) by ring.
      eapply Qcle_trans; [by apply Qcplus_le_mono_r|]. by apply Qcplus_le_mono_l.
Qed.

Lemma Qcle_div_lower (a b c : Qc) : 0 < c → c * a ≤ b → a ≤ b / c.
Proof.
  intros Hc H. replace a with (c * a / c) by (field; by apply Qclt_ne).
  unfold Qcdiv. apply Qcmult_le_mono_nonneg_r; [|done].
  apply Qclt_le_weak. by apply Qcinv_pos.
Qed.

Lemma Qcle_div_upper (a b c : Qc) : 0 < c → b ≤ c * a → b / c ≤ a.
Proof.
  intros Hc H. replace a with (c * a / c) by (field; by apply Qclt_ne).
  unfold Qcdiv. apply Qcmult_le_mono_nonneg_r; [|done].
  apply Qclt_le_weak. by apply Qcinv_pos.
Qed.



(** ** Rounding keeps integer bounds *)

Lemma qz_le_iff (k : Z) (q : Qc) : qz k ≤ q ↔ (k * Zpos (Qden q) ≤ Qnum q)%Z.
Proof.
  unfold Qcle, qz, Qc_of_Z. cbn [this]. unfold Qle. cbn. by rewrite Z.mul_1_r.
Qed.

Lemma le_qz_iff (k : Z) (q : Qc) : q ≤ qz k ↔ (Qnum q ≤ k * Zpos (Qden q))%Z.
Proof.
  unfold Qcle, qz, Qc_of_Z. cbn [this]. unfold Qle. cbn. by rewrite Z.mul_1_r.
Qed.

Lemma round_half_even_lower (k : Z) (q : Qc) : qz k ≤ q → (k ≤ round_half_even q)%Z.
Proof.
  rewrite qz_le_iff. intros H. unfold round_half_even.
  assert (Hf : (k ≤ Qnum q `div` Zpos (Qden q))%Z).
  { apply Z.div_le_lower_bound; lia. }
  destruct (2 * (Qnum q `mod` Zpos (Qden q)) ?= Zpos (Qden q))%Z;
    [destruct (Z.even _)|..]; lia.
Qed.

Lemma round_half_even_upper (k : Z) (q : Qc) : q ≤ qz k → (round_half_even q ≤ k)%Z.
Proof.
  rewrite le_qz_iff. intros H. unfold round_half_even.
  pose proof (Z.div_mod (Qnum q) (Zpos (Qden q)) ltac:(lia)) as Hdm.
  pose proof (Z.mod_pos_bound (Qnum q) (Zpos (Qden q)) ltac:(lia)) as Hm.
  set (f := (Qnum q `div` Zpos (Qden q))%Z) in *.
  set (r := (Qnum q `mod` Zpos (Qden q))%Z) in *.
  assert (Hf : (f ≤ k)%Z) by nia.
  destruct (decide (f = k)) as [->|Hne].
  - assert (r = 0)%Z as -> by nia.
    change (2 * 0)%Z with 0%Z. by rewrite (proj2 (Z.compare_lt_iff 0 _)) by lia.
  - destruct (2 * r ?= Zpos (Qden q))%Z; [destruct (Z.even _)|..]; lia.
Qed.

Lemma qz_le a b : (a ≤ b)%Z → qz a ≤ qz b.
Proof. intros H. unfold qz. by apply (proj1 (Z2Qc_inj_le a b)). Qed.

Lemma qz_mul a b : qz (a * b) = qz a * qz b.
Proof. apply Z2Qc_inj_mul. Qed.

Lemma scale_pos (n : nat) : 0 < qz (10 ^ Z.of_nat n).
Proof. apply qz_pos. apply Z.pow_pos_nonneg; lia. Qed.

(** Rounding to [n] decimals never leaves an interval with integer ends. *)
Lemma round_between (a b : Z) (x : Qc) (n : nat) :
  qz a ≤ x → x ≤ qz b → qz a ≤ round x n ∧ round x n ≤ qz b.
Proof.
  intros Ha Hb. unfold round.
  pose proof (scale_pos n) as Hs. set (s := (10 ^ Z.of_nat n)%Z) in *.
  split.
  - apply Qcle_div_lower; [done|].
    rewrite <- qz_mul. apply qz_le. apply round_half_even_lower.
    rewrite qz_mul, (Qcmult_comm (qz s)).
    apply Qcmult_le_mono_nonneg_r; [by apply Qclt_le_weak | done].
  - apply Qcle_div_upper; [done|].
    rewrite <- qz_mul. apply qz_le. apply round_half_even_upper.
    rewrite qz_mul, (Qcmult_comm (qz s)).
    apply Qcmult_le_mono_nonneg_r; [by apply Qclt_le_weak | done].
Qed.

(** ** Overall benchmark score *)

Import BenchmarkReport.

Lemma scores_collected (evaluation : list (string * evaluation)) : ∀ scores,
  foldl (λ scores '(metric, result), scores ++ [status_score (ev_status result)])
        scores evaluation
  = scores ++ ((λ e, status_score (ev_status e.2)) <$> evaluation).
Proof.
  induction evaluation as [|[metric result] rest IH]; intros scores; cbn.
  - by rewrite app_nil_r.
  - by rewrite IH, <- app_assoc.
Qed.

Lemma status_score_range status : (25 ≤ status_score status ≤ 100)%Z.
Proof. unfold status_score. repeat case_decide; lia. Qed.

(** The score lies between any two integers that bound the status scores. *)
Lemma overall_score_between (lo hi : Z) (evaluation : list (string * evaluation)) :
  evaluation ≠ [] →
  Forall (λ e, (lo ≤ status_score (ev_status e.2) ≤ hi)%Z) evaluation →
  ∃ score, get_overall_score evaluation = Ok score ∧ qz lo ≤ score ∧ score ≤ qz hi.
Proof.
  intros Hne Hall. unfold get_overall_score.
  destruct evaluation as [|e rest]; [done|].
  rewrite scores_collected. cbn [app].
  set (scores := (λ e, status_score (ev_status e.2)) <$> e :: rest).
  assert (Hlen : length scores = S (length rest)) by (unfold scores; by rewrite length_fmap).
  assert (Hbounds : Forall (λ v, qz lo ≤ v ∧ v ≤ qz hi) (qz <$> scores)).
  { unfold scores. rewrite Forall_fmap, Forall_fmap.
    eapply Forall_impl; [exact Hall|]. cbn. intros x [? ?]. split; by apply qz_le. }
  destruct (sum_bounds _ _ _ Hbounds) as [Hlo Hhi]. rewrite length_fmap in Hlo, Hhi.
  assert (Hpos : 0 < qz (Z.of_nat (length scores))) by (apply qz_pos; lia).
  destruct scores as [|s0 scores'] eqn:Hs; [done|].
  rewrite truediv_Ok by by apply Qclt_ne. cbn [mbind result_bind bind].
  eexists. split; [reflexivity|].
  apply round_between; [by apply Qcle_div_lower | by apply Qcle_div_upper].
Qed.

(** X4: the overall score of an empty evaluation is 0, and that of a
    non-empty evaluation lies between 25 and 100, whatever the statuses. *)
Theorem overall_score_range (evaluation : list (string * evaluation)) :
  ∃ score, get_overall_score evaluation = Ok score
    ∧ (evaluation = [] → score = 0)
    ∧ (evaluation ≠ [] → qz 25 ≤ score ∧ score ≤ qz 100).
Proof.
  destruct evaluation as [|e rest].
  - exists 0. by split_and!.
  - destruct (overall_score_between 25 100 (e :: rest)) as (score & Hrun & Hb); [done|..].
    + apply Forall_forall. intros x _. apply status_score_range.
    + exists score. split_and!; done.
Qed.

(** X5: when every metric of a non-empty evaluation has the same status,
    the overall score is the score of that status; all excellent gives 100
    and all critical 25. *)
Theorem overall_score_uniform (evaluation : list (string * evaluation)) status :
  evaluation ≠ [] →
  Forall (λ e, ev_status e.2 = status) evaluation →
  get_overall_score evaluation = Ok (qz (status_score status))
  ∧ status_score "excellent" = 100%Z ∧ status_score "critical" = 25%Z.
Proof.
  intros Hne Hall. split; [|done].
  destruct (overall_score_between (status_score status) (status_score status) evaluation)
    as (score & Hrun & Hlo & Hhi); [done|..].
  - eapply Forall_impl; [exact Hall|]. cbn. intros x ->. lia.
  - rewrite Hrun. f_equal. by apply Qcle_antisym.
Qed.

Lemma overall_score_uniform_witness :
  get_overall_score all_alerts = Ok (qz (status_score "critical"))
  ∧ status_score "excellent" = 100%Z ∧ status_score "critical" = 25%Z.
Proof.
  apply (overall_score_uniform all_alerts "critical").
  - discriminate.
  - unfold all_alerts. repeat constructor.
Defined.

(** ** Benchmark analysis of an aggregate *)

Import BenchmarkRows.

Section AnalyzeFacts.
Variable str : Qc → string.

Abbreviation analyze_loop_ := (BenchmarkReport.analyze_loop str).
Abbreviation analyze_all_metrics_ := (BenchmarkReport.analyze_all_metrics str).
Abbreviation row_of_ := (BenchmarkRows.row_of str).

(** The result dict of [evaluate] on a registered metric, key by key. *)
Lemma evaluate_items self metric b v :
  get_benchmark self metric = Some b → gap_divisor b ≠ 0 →
  ∃ d, evaluate str self metric v = Ok d
    ∧ item_str d "industry_range" = Ok (ev_benchmark_range (row_of_ b v))
    ∧ item_num d "excellent" = Ok (ev_excellent (row_of_ b v))
    ∧ item_str d "status" = Ok (ev_status (row_of_ b v))
    ∧ item_str d "rating" = Ok (ev_rating (row_of_ b v))
    ∧ item_num d "gap_percent" = Ok (ev_gap_percent (row_of_ b v))
    ∧ item_bool d "is_alert" = Ok (is_alert (row_of_ b v)).
Proof.
  intros Hb Hd. unfold evaluate, gap_divisor, row_of, gap_of, status_spec in *.
  rewrite Hb. cbn [ev_benchmark_range ev_excellent ev_status ev_rating ev_gap_percent is_alert].
  destruct (higher_better b); repeat case_decide; try done;
    rewrite truediv_Ok by done; cbn [mbind result_bind bind];
    eexists; (split; [reflexivity|]);
    unfold item_str, item_num, item_bool; by simplify_map_eq.
Qed.

(** One round of the loop on a registered metric. *)
Lemma analyze_loop_step self data field key rest results b :
  get_benchmark self key = Some b → gap_divisor b ≠ 0 →
  analyze_loop_ self data ((field, key) :: rest) results
  = analyze_loop_ self data rest (setitem results key (row_of_ b (get data field))).
Proof.
  intros Hb Hd. cbn [analyze_loop].
  destruct (evaluate_items self key b (get data field) Hb Hd)
    as (d & H0 & H1 & H2 & H3 & H4 & H5 & H6).
  rewrite H0. cbn [mbind result_bind bind].
  rewrite H1. cbn [mbind result_bind bind].
  rewrite H2. cbn [mbind result_bind bind].
  rewrite H3. cbn [mbind result_bind bind].
  rewrite H4. cbn [mbind result_bind bind].
  rewrite H5. cbn [mbind result_bind bind].
  rewrite H6. cbn [mbind result_bind bind].
  reflexivity.
Qed.

End AnalyzeFacts.
